(** * kindle-to-md: a shallow embedding of [src/kindle_to_md.py]

    The program reads a Bookcision JSON export of Kindle highlights and
    renders it as Markdown.  The values it manipulates are the untyped
    trees returned by Python's [json.load]; every access is a dynamic
    subscript that can raise.  The embedding keeps that: documents are
    [json] trees, every function returns in the [result] monad, and the
    [try ... except KeyError] blocks of the source are explicit handlers. *)

From Stdlib Require Import ZArith String Ascii List SpecFloat.
From stdpp Require Import gmap strings pretty.

#[local] Set Warnings "-register-all".

(** ** Python values produced by [json.load] *)

(** A JSON object is kept as an association list in insertion order:
    iteration over a dict and its printed form depend on that order.
    [json.load] keeps one binding per key, so lookups never meet a
    duplicate; [dict_get] returns the first binding.  A [string] is a
    sequence of characters.  A float is an IEEE-754 binary64 value. *)
Inductive json : Type :=
| JNull
| JBool (b : bool)
| JInt (n : Z)
| JFloat (x : spec_float)
| JStr (s : string)
| JList (items : list json)
| JDict (fields : list (string * json)).

(** ** Exceptions and the error monad *)

(** The exception classes that the program raises or meets.  The two
    classes declared at the end of the source take the constructor
    arguments of [Exception]: [raise C] builds an instance without
    arguments, [raise C(msg)] one with a message.  [OSError] stands for
    the instances of [OSError] that are not [FileNotFoundError]
    ([IsADirectoryError], [NotADirectoryError], [PermissionError], ...),
    and [ValueError] for those of [ValueError] that are none of
    [JSONDecodeError], [UnicodeDecodeError] and [UnicodeEncodeError]. *)
Inductive exn : Type :=
| KeyError (key : string)
| TypeError
| MisformattedKindleData (message : option string)
| InvalidCommandLineArguments (message : option string)
| FileNotFoundError (path : string)
| OSError (path : string)
| JSONDecodeError
| UnicodeDecodeError
| UnicodeEncodeError
| ValueError.

(** The two modes in which the program opens a file. *)
Inductive open_mode : Type :=
| Reading
| Writing.

Inductive result (A : Type) : Type :=
| Ok (a : A)
| Raise (e : exn).
Arguments Ok {A} a.
Arguments Raise {A} e.

(** Sequencing: the first exception raised ends the computation. *)
Definition bind {A B : Type} (r : result A) (k : A -> result B) : result B :=
  match r with
  | Ok a => k a
  | Raise e => Raise e
  end.

Notation "'do' x <- r ; k" := (bind r (fun x => k))
  (at level 10, x name, r at level 100, k at level 200).

(** [try: body except KeyError: handler] *)
Definition except_KeyError {A : Type} (body handler : result A) : result A :=
  match body with
  | Raise (KeyError _) => handler
  | other => other
  end.

(** [a and b] where both operands are used for their truth value. *)
Definition py_and (a b : result bool) : result bool :=
  do x <- a; if x then b else Ok false.

Definition nl : string := String "010"%char EmptyString.

(** ** The Python operations the source applies to parsed values *)

Fixpoint dict_get (fields : list (string * json)) (key : string) : option json :=
  match fields with
  | [] => None
  | (k, v) :: rest => if String.eqb k key then Some v else dict_get rest key
  end.

(** [obj[key]] with a string key: only a dict accepts it. *)
Definition getitem (obj : json) (key : string) : result json :=
  match obj with
  | JDict fields =>
      match dict_get fields key with
      | Some v => Ok v
      | None => Raise (KeyError key)
      end
  | _ => Raise TypeError
  end.

(** The elements a [for] loop or a comprehension draws from a value. *)
Definition iter (obj : json) : result (list json) :=
  match obj with
  | JList items => Ok items
  | JDict fields => Ok (map (fun kv => JStr (fst kv)) fields)
  | JStr s => Ok (map (fun c => JStr (String c EmptyString)) (list_ascii_of_string s))
  | _ => Raise TypeError
  end.

(** [bool(v)] *)
Definition truthy (v : json) : bool :=
  match v with
  | JNull => false
  | JBool b => b
  | JInt n => negb (Z.eqb n 0)
  | JFloat (S754_zero _) => false
  | JFloat _ => true
  | JStr s => negb (String.eqb s "")
  | JList items => match items with [] => false | _ => true end
  | JDict fields => match fields with [] => false | _ => true end
  end.

(** [v == s] for a string literal [s]: no other kind of value equals a
    string. *)
Definition eq_str (v : json) (s : string) : bool :=
  match v with
  | JStr t => String.eqb t s
  | _ => false
  end.

(** [v is not None] *)
Definition is_not_None (v : json) : bool :=
  match v with
  | JNull => false
  | _ => true
  end.

(** [str(error)] for an exception built from at most one message. *)
Definition exn_message (message : option string) : string :=
  match message with
  | Some m => m
  | None => ""
  end.

(** ** Predicates named by the properties below *)

(** An entry is contradictory when [isNoteOnly] holds and [text] is not
    the empty string, or [isNoteOnly] does not hold and [text] is the
    empty string. *)
Definition contradictory (isNoteOnly text : json) : bool :=
  (truthy isNoteOnly && negb (eq_str text ""))
  || (negb (truthy isNoteOnly) && eq_str text "").

(** The same, read off an entry that has both keys. *)
Definition is_contradictory (entry : json) : bool :=
  match getitem entry "isNoteOnly", getitem entry "text" with
  | Ok isNoteOnly, Ok text => contradictory isNoteOnly text
  | _, _ => false
  end.

(** The shape of an entry of the input format: an object whose
    [location], when it has one, is an object. *)
Definition entry_shaped (entry : json) : bool :=
  match entry with
  | JDict fields =>
      match dict_get fields "location" with
      | None | Some (JDict _) => true
      | Some _ => false
      end
  | _ => false
  end.

Section Program.

(** [repr] of the Python runtime.  The source never calls it directly;
    it is reached through [str] on floats, lists and dicts and through
    the text of an [OSError]. *)
Variable py_repr : json -> string.

(** [json.load] on the content of a file: the parsed document, or the
    exception raised while the content is decoded and parsed
    ([JSONDecodeError], [UnicodeDecodeError], [ValueError], ...). *)
Variable json_loads : string -> result json.

(** The operating system's refusal to open a path in a mode, if any.
    For reading it is asked only about paths that hold no readable file;
    [None] there means that nothing exists at the path. *)
Variable open_error : string -> open_mode -> option exn.

(** The failure of writing a text to a destination (a path, or standard
    output for [None]), if any: the exception raised, by the encoder or
    by the operating system, and the part of the text that was delivered
    before it. *)
Variable write_error : option string -> string -> option (exn * string).

(** [format(v, "")], what an f-string field [{v}] expands to. *)
Definition fmt (v : json) : string :=
  match v with
  | JStr s => s
  | JNull => "None"
  | JBool true => "True"
  | JBool false => "False"
  | JInt n => pretty n
  | JFloat _ | JList _ | JDict _ => py_repr v
  end.

(** ** [single_entry_to_md] *)

Definition single_entry_to_md (entry_data : json) : result string :=
  let markdown := "" in
  except_KeyError
    (do location <- getitem entry_data "location";
     do value <- getitem location "value";
     do location <- getitem entry_data "location";
     do url <- getitem location "url";
     let kindle_link := "[" +:+ fmt value +:+ "](" +:+ fmt url +:+ ")" in
     do c <- py_and
       (do isNoteOnly <- getitem entry_data "isNoteOnly"; Ok (truthy isNoteOnly))
       (do text <- getitem entry_data "text"; Ok (negb (eq_str text "")));
     if c then Raise (MisformattedKindleData None) else
     do c <- py_and
       (do isNoteOnly <- getitem entry_data "isNoteOnly"; Ok (negb (truthy isNoteOnly)))
       (do text <- getitem entry_data "text"; Ok (eq_str text ""));
     if c then Raise (MisformattedKindleData None) else
     do c <- py_and
       (do isNoteOnly <- getitem entry_data "isNoteOnly"; Ok (truthy isNoteOnly))
       (py_and (do note <- getitem entry_data "note"; Ok (truthy note))
               (do note <- getitem entry_data "note"; Ok (negb (eq_str note ""))));
     do markdown <-
       (if c then
          do note <- getitem entry_data "note";
          Ok (markdown +:+ "- Note: " +:+ fmt note +:+ " (" +:+ kindle_link +:+ ")" +:+ nl)
        else Ok markdown);
     do c <- py_and
       (do isNoteOnly <- getitem entry_data "isNoteOnly"; Ok (negb (truthy isNoteOnly)))
       (do text <- getitem entry_data "text"; Ok (negb (eq_str text "")));
     if c then
       do text <- getitem entry_data "text";
       let markdown :=
         markdown +:+ "- " +:+ fmt text +:+ " (" +:+ kindle_link +:+ ")" +:+ nl in
       do c <- py_and
         (do note <- getitem entry_data "note"; Ok (truthy note))
         (do note <- getitem entry_data "note"; Ok (negb (eq_str note "")));
       if c then
         do note <- getitem entry_data "note";
         Ok (markdown +:+ "    - Note: " +:+ fmt note +:+ nl)
       else Ok markdown
     else Ok markdown)
    (Raise (MisformattedKindleData (Some "Kindle export missing expeced fields."))).

(** ** [kindle_to_md] *)

(** The comprehension [[ i for i in ... if i['note'] is not None ]]:
    elements are tested in order and the first failing subscript ends
    it. *)
Fixpoint with_notes (items : list json) : result (list json) :=
  match items with
  | [] => Ok []
  | i :: rest =>
      do note <- getitem i "note";
      do kept <- with_notes rest;
      Ok (if is_not_None note then i :: kept else kept)
  end.

(** [for highlight in items: markdown_str += single_entry_to_md(highlight)] *)
Fixpoint for_highlights (markdown_str : string) (items : list json) : result string :=
  match items with
  | [] => Ok markdown_str
  | highlight :: rest =>
      do md <- single_entry_to_md highlight;
      for_highlights (markdown_str +:+ md) rest
  end.

Definition kindle_to_md (kindle_data : json) (notes_section : bool) : result string :=
  let markdown_str := "" in
  do markdown_str <-
    except_KeyError
      (do title <- getitem kindle_data "title";
       let markdown_str := markdown_str +:+ "# " +:+ fmt title +:+ nl +:+ nl in
       do authors <- getitem kindle_data "authors";
       Ok (markdown_str +:+ "Authors: " +:+ fmt authors +:+ nl +:+ nl))
      (Raise (MisformattedKindleData (Some "Kindle export missing title or author fields.")));
  do markdown_str <-
    (if notes_section then
       let markdown_str := markdown_str +:+ "## Highlights with Notes" +:+ nl +:+ nl in
       do highlights_with_notes <-
         except_KeyError
           (do highlights <- getitem kindle_data "highlights";
            do items <- iter highlights;
            with_notes items)
           (Raise (MisformattedKindleData (Some "Kindle export missing expected fields.")));
       do markdown_str <- for_highlights markdown_str highlights_with_notes;
       Ok (markdown_str +:+ nl +:+ nl)
     else Ok markdown_str);
  let markdown_str := markdown_str +:+ "## All Highlights" +:+ nl +:+ nl in
  do highlights <- getitem kindle_data "highlights";
  do items <- iter highlights;
  for_highlights markdown_str items.

(** ** The process: arguments, files and standard output *)

(** What a run can observe and change: the content of the files that can
    be opened and read, by path, and the text written to standard output
    so far.  The messages and the usage text of [show_help] always reach
    standard output. *)
Record world : Type := World {
  files : gmap string string;
  stdout : string
}.

(** [print(s)]: the text and a newline. *)
Definition print (s : string) (w : world) : world :=
  World (files w) (stdout w +:+ s +:+ nl).

(** How a run ends: [main] returns, [sys.exit(code)] is called, or an
    exception that no handler names leaves [main]. *)
Inductive outcome : Type :=
| Returned
| Exited (code : Z)
| Uncaught (e : exn).

Definition parse_command_line_arguments (argv : list string)
  : result (string * option string) :=
  if (length argv <? 2)%nat || (3 <? length argv)%nat then
    Raise (InvalidCommandLineArguments (Some "Incorrect number of command line arguments."))
  else
    let input_filename := nth 1 argv "" in
    let output_filename :=
      if (length argv =? 3)%nat then Some (nth 2 argv "") else None in
    Ok (input_filename, output_filename).

Definition parse_json_file (file_name : string) (w : world) : result json :=
  match files w !! file_name with
  | None =>
      match open_error file_name Reading with
      | Some error => Raise error
      | None => Raise (FileNotFoundError file_name)
      end
  | Some text =>
      match json_loads text with
      | Raise JSONDecodeError =>
          Raise (MisformattedKindleData (Some "Input file is not a valid JSON document."))
      | other => other
      end
  end.

(** The state the writer leaves and the exception it raises, if any.
    [open(filename, 'w')] either fails and changes nothing, or empties
    the file; the text then written is all of [output_text], or the part
    delivered before the write failed. *)
Definition write_output (output_text : string) (filename : option string)
    (w : world) : world * option exn :=
  match filename with
  | None =>
      match write_error None output_text with
      | None => (print output_text w, None)
      | Some (error, delivered) =>
          (World (files w) (stdout w +:+ delivered), Some error)
      end
  | Some path =>
      match open_error path Writing with
      | Some error => (w, Some error)
      | None =>
          match write_error (Some path) output_text with
          | None => (World (<[path := output_text]> (files w)) (stdout w), None)
          | Some (error, delivered) =>
              (World (<[path := delivered]> (files w)) (stdout w), Some error)
          end
      end
  end.

(** The usage text after [textwrap.dedent]. *)
Definition help_text : string :=
  "Converts JSON Amazon Kindle notes generated by Bookcision to markdown." +:+ nl +:+
  nl +:+
  "Bookcision (https://bookcision.readwise.io/) is a bookmarklet that exports" +:+ nl +:+
  "Kindle notes and highlights (https://read.amazon.com/notebook). This script" +:+ nl +:+
  "converts notes and highlights exported as JSON to markdown." +:+ nl +:+
  nl +:+
  "Syntax: kindle-to-md <inputfile.json> [<outputfile.md>]" +:+ nl +:+
  nl +:+
  "If outputfile is omitted, will be printed to stdout." +:+ nl.

Definition show_help (help_message : option string) (w : world) : world :=
  let w := match help_message with
           | Some m => print (m +:+ nl) w
           | None => w
           end in
  print help_text w.

(** [str(error)] for the exceptions [main] catches; [None] for the
    others, which leave [main]. *)
Definition caught (e : exn) : option string :=
  match e with
  | InvalidCommandLineArguments m => Some (exn_message m)
  | MisformattedKindleData m => Some (exn_message m)
  | FileNotFoundError path =>
      Some ("[Errno 2] No such file or directory: " +:+ py_repr (JStr path))
  | KeyError _ | TypeError | OSError _ | JSONDecodeError
  | UnicodeDecodeError | UnicodeEncodeError | ValueError => None
  end.

(** The [try ... except] of [main], applied to the state its body left
    and to the exception that ended the body, if any. *)
Definition top_level (w : world) (raised : option exn) : outcome * world :=
  match raised with
  | None => (Returned, w)
  | Some error =>
      match caught error with
      | Some message => (Exited 1, show_help (Some message) w)
      | None => (Uncaught error, w)
      end
  end.

Definition main (argv : list string) (w : world) : outcome * world :=
  let rendered :=
    do args <- parse_command_line_arguments argv;
    let '(input_filename, output_filename) := args in
    do kindle_data <- parse_json_file input_filename w;
    do markdown_text <- kindle_to_md kindle_data true;
    Ok (markdown_text, output_filename) in
  match rendered with
  | Ok (markdown_text, output_filename) =>
      let '(w', raised) := write_output markdown_text output_filename w in
      top_level w' raised
  | Raise error => top_level w (Some error)
  end.

(** ** Values named by the examples below *)

Definition location_12 : json :=
  JDict [("value", JStr "12"); ("url", JStr "http://x")].

Definition empty_document : json :=
  JDict [("title", JStr "T"); ("authors", JStr "A"); ("highlights", JList [])].

Definition plain_highlight : json :=
  JDict [("text", JStr "Hi"); ("note", JNull); ("isNoteOnly", JBool false);
         ("location", location_12)].

Definition document_without_highlights : json :=
  JDict [("title", JStr "T"); ("authors", JStr "A")].

(** A note-only entry whose [note] key is absent. *)
Definition note_only_without_note : json :=
  JDict [("text", JStr ""); ("isNoteOnly", JBool true); ("location", location_12)].

(** A note-only entry with a null note. *)
Definition note_only_null_note : json :=
  JDict [("text", JStr ""); ("note", JNull); ("isNoteOnly", JBool true);
         ("location", location_12)].

(** The malformed entry of the specification: note-only, with text. *)
Definition contradictory_highlight : json :=
  JDict [("text", JStr "something"); ("note", JNull); ("isNoteOnly", JBool true);
         ("location", location_12)].

Definition document_of (highlights : list json) : json :=
  JDict [("title", JStr "T"); ("authors", JStr "A"); ("highlights", JList highlights)].

(** A state with one input file and nothing printed yet, and command
    lines that name it. *)
Definition sample_world : world :=
  World {[ "in.json" := "{}" ]} "".

Definition argv_to_file : list string := ["kindle-to-md"; "in.json"; "out.md"].

(** A state where the output path already holds a file and earlier
    text stands on standard output. *)
Definition busy_world : world :=
  World {[ "in.json" := "{}"; "out.md" := "old" ]} "earlier".

(** Stand-ins for the runtime in closed examples: a [repr] that none of
    them reaches, and a decoder that yields a given document. *)
Definition repr_unused : json -> string := fun _ => "".
Definition loads_as (d : json) : string -> result json := fun _ => Ok d.

(** An operating system that refuses nothing, and one where the
    directory [nodir] does not exist, so that no file can be created in
    it. *)
Definition no_open_error : string -> open_mode -> option exn := fun _ _ => None.
Definition missing_directory : string -> open_mode -> option exn :=
  fun path mode =>
    match mode with
    | Writing =>
        if String.eqb path "nodir/out.md" then Some (FileNotFoundError path) else None
    | Reading => None
    end.

(** Writes that always succeed, and writes that fail on one text, which
    the output encoding cannot represent, before anything of it is
    delivered. *)
Definition no_write_error : option string -> string -> option (exn * string) :=
  fun _ _ => None.
(** The character U+D800, a lone surrogate, which a JSON escape can put
    into a document and which UTF-8 cannot encode; it stands here as the
    three bytes of its generalised UTF-8 form. *)
Definition lone_surrogate : string :=
  String "237"%char (String "160"%char (String "128"%char EmptyString)).

Definition unencodable (bad : string) : option string -> string -> option (exn * string) :=
  fun _ text => if String.eqb text bad then Some (UnicodeEncodeError, "") else None.


(** A highlight that carries a note. *)
Definition noted_highlight : json :=
  JDict [("text", JStr "Hi"); ("note", JStr "thought"); ("isNoteOnly", JBool false);
         ("location", location_12)].

(** A state without any file. *)
Definition empty_world : world := World ∅ "".

(** ** Functions named by the layout properties below *)

(** The test of the comprehension in [kindle_to_md], on an entry that has
    a [note] key: [i['note'] is not None]. *)
Definition has_note (entry : json) : bool :=
  match getitem entry "note" with
  | Ok note => is_not_None note
  | Raise _ => false
  end.

(** The pieces of text appended one after the other. *)
Definition join (pieces : list string) : string :=
  fold_right String.append "" pieces.

(** The exceptions that subscripts and the program's own [raise]
    statements can produce while a document is rendered. *)
Definition rendering_exn (e : exn) : bool :=
  match e with
  | KeyError _ | TypeError | MisformattedKindleData _ => true
  | InvalidCommandLineArguments _ | FileNotFoundError _ | OSError _
  | JSONDecodeError | UnicodeDecodeError | UnicodeEncodeError | ValueError => false
  end.

Definition rendering_result {A : Type} (r : result A) : bool :=
  match r with
  | Ok _ => true
  | Raise e => rendering_exn e
  end.

(** * Properties *)

Lemma append_empty_r (s : string) : s +:+ "" = s.
Proof.
  induction s as [|c s IH]; [reflexivity|].
  change (String c (s +:+ "") = String c s). congruence.
Qed.

(** Rewrites every subscript whose binding is a hypothesis. *)
Ltac known_fields :=
  repeat match goal with
         | H : dict_get ?f ?k = _ |- context [dict_get ?f ?k] => rewrite H
         end.

(** ** Worked examples *)

(** C1: the document [{"title":"T","authors":"A","highlights":[]}],
    rendered with the notes section on, is the two header lines, the
    "Highlights with Notes" heading, the blank separator and the
    "All Highlights" heading, and nothing else. *)
Theorem kindle_to_md_empty_document :
  kindle_to_md empty_document true
  = Ok ("# T" +:+ nl +:+ nl +:+ "Authors: A" +:+ nl +:+ nl +:+
        "## Highlights with Notes" +:+ nl +:+ nl +:+ nl +:+ nl +:+
        "## All Highlights" +:+ nl +:+ nl).
Proof. reflexivity. Qed.

(** C6: the highlight "Hi" at location 12 with a null note renders as the
    single line [- Hi ([12](http://x))] and a newline: no sub-bullet. *)
Theorem single_entry_plain_highlight :
  single_entry_to_md plain_highlight = Ok ("- Hi ([12](http://x))" +:+ nl).
Proof. reflexivity. Qed.

(** ** The single-entry renderer on entries with all their keys *)

Section CompleteEntry.

Variables (fields loc : list (string * json)).
Variables (value url isNoteOnly text note : json).
Hypothesis Hlocation : dict_get fields "location" = Some (JDict loc).
Hypothesis Hvalue : dict_get loc "value" = Some value.
Hypothesis Hurl : dict_get loc "url" = Some url.
Hypothesis HisNoteOnly : dict_get fields "isNoteOnly" = Some isNoteOnly.
Hypothesis Htext : dict_get fields "text" = Some text.

(** A contradictory entry is refused before [note] is read, with an
    exception built without a message. *)
Lemma contradictory_raises :
  contradictory isNoteOnly text = true ->
  single_entry_to_md (JDict fields) = Raise (MisformattedKindleData None).
Proof.
  unfold contradictory, single_entry_to_md, getitem, py_and, bind.
  known_fields. simpl. known_fields.
  destruct (truthy isNoteOnly), (eq_str text ""); simpl; intros Hc;
    try discriminate Hc; reflexivity.
Qed.

(** C10: the refusal of a contradictory entry carries no message: its
    text is the empty string, so the top level prints an empty line where
    the explanation would stand, then the usage text.  A failure from a
    missing key carries a message that is not empty. *)
Theorem contradictory_error_has_empty_message (w : world) :
  contradictory isNoteOnly text = true ->
  single_entry_to_md (JDict fields) = Raise (MisformattedKindleData None)
  /\ caught (MisformattedKindleData None) = Some ""
  /\ show_help (Some "") w
     = World (files w) ((stdout w +:+ nl +:+ nl) +:+ help_text +:+ nl)
  /\ (forall entry : list (string * json),
        dict_get entry "location" = None ->
        exists message,
          single_entry_to_md (JDict entry)
          = Raise (MisformattedKindleData (Some message))
          /\ message <> "").
Proof.
  intros Hc. split; [now apply contradictory_raises|].
  split; [reflexivity|]. split; [reflexivity|].
  intros entry Hmissing. eexists. split.
  - unfold single_entry_to_md, getitem, bind. rewrite Hmissing. reflexivity.
  - discriminate.
Qed.

Hypothesis Hnote : dict_get fields "note" = Some note.

Lemma consistent_returns :
  contradictory isNoteOnly text = false ->
  exists s, single_entry_to_md (JDict fields) = Ok s.
Proof.
  unfold contradictory, single_entry_to_md, getitem, py_and, bind.
  known_fields. simpl. known_fields.
  destruct (truthy isNoteOnly), (eq_str text ""); simpl; intros Hc;
    try discriminate Hc; known_fields;
    destruct (truthy note), (eq_str note ""); simpl; known_fields; eauto.
Qed.

(** C3 (amended): when the location fields and the keys [isNoteOnly],
    [text] and [note] are all present, the renderer raises the
    malformed-data error exactly for the contradictory entries, and
    returns a string for all the others. *)
Theorem single_entry_fails_iff_contradictory :
  ((exists m, single_entry_to_md (JDict fields) = Raise (MisformattedKindleData m))
   <-> contradictory isNoteOnly text = true)
  /\ (contradictory isNoteOnly text = false ->
      exists s, single_entry_to_md (JDict fields) = Ok s).
Proof.
  split; [split|].
  - intros [m Hm]. destruct (contradictory isNoteOnly text) eqn:Hc; [reflexivity|].
    destruct (consistent_returns Hc) as [s Hs]. congruence.
  - intros Hc. exists None. now apply contradictory_raises.
  - apply consistent_returns.
Qed.

End CompleteEntry.

(** ** Entries that render to nothing *)

Lemma for_highlights_app (xs ys : list json) : forall acc,
  for_highlights acc (xs ++ ys)
  = do acc' <- for_highlights acc xs; for_highlights acc' ys.
Proof.
  induction xs as [|x xs IH]; intros acc; simpl; [reflexivity|].
  destruct (single_entry_to_md x) as [md|e]; simpl; [apply IH | reflexivity].
Qed.

Lemma for_highlights_silent (e : json) (rest : list json) (acc : string) :
  single_entry_to_md e = Ok "" ->
  for_highlights acc (e :: rest) = for_highlights acc rest.
Proof. intros He. simpl. rewrite He. simpl. now rewrite append_empty_r. Qed.

Lemma for_highlights_insert_silent (e : json) (pre post : list json) :
  single_entry_to_md e = Ok "" ->
  forall acc, for_highlights acc (pre ++ e :: post) = for_highlights acc (pre ++ post).
Proof.
  intros He acc. rewrite !for_highlights_app.
  destruct (for_highlights acc pre) as [acc'|x]; simpl; [|reflexivity].
  rewrite He. simpl. now rewrite append_empty_r.
Qed.

(** Inserting a silent entry that has a [note] key changes neither the
    exception of the comprehension nor what the kept entries render. *)
Lemma with_notes_silent (e note : json) (pre post : list json) :
  getitem e "note" = Ok note ->
  single_entry_to_md e = Ok "" ->
  match with_notes (pre ++ e :: post), with_notes (pre ++ post) with
  | Ok kept', Ok kept =>
      forall acc, for_highlights acc kept' = for_highlights acc kept
  | Raise x', Raise x => x' = x
  | _, _ => False
  end.
Proof.
  intros Hnote He. induction pre as [|a pre IH]; simpl.
  - rewrite Hnote. simpl. destruct (with_notes post) as [kept|x]; simpl; [|reflexivity].
    intros acc. destruct (is_not_None note); [|reflexivity].
    now apply for_highlights_silent.
  - destruct (getitem a "note") as [n|x]; simpl; [|reflexivity].
    destruct (with_notes (pre ++ e :: post)) as [kept'|x'],
             (with_notes (pre ++ post)) as [kept|x]; simpl; try exact IH.
    intros acc. destruct (is_not_None n); [|apply IH].
    simpl. destruct (single_entry_to_md a); simpl; [apply IH | reflexivity].
Qed.

Section SilentEntry.

Variables (fields loc : list (string * json)).
Variables (value url isNoteOnly text note : json).
Hypothesis Hlocation : dict_get fields "location" = Some (JDict loc).
Hypothesis Hvalue : dict_get loc "value" = Some value.
Hypothesis Hurl : dict_get loc "url" = Some url.
Hypothesis HisNoteOnly : dict_get fields "isNoteOnly" = Some isNoteOnly.
Hypothesis Htext : dict_get fields "text" = Some text.
Hypothesis Hnote : dict_get fields "note" = Some note.
Hypothesis Hnote_only : truthy isNoteOnly = true.
Hypothesis Hno_text : eq_str text "" = true.
Hypothesis Hno_note : note = JNull \/ note = JStr "".

Lemma silent_entry_renders_nothing : single_entry_to_md (JDict fields) = Ok "".
Proof.
  unfold single_entry_to_md, getitem, py_and, bind.
  known_fields. simpl. known_fields. rewrite Hnote_only, Hno_text. simpl.
  known_fields. destruct Hno_note as [-> | ->]; reflexivity.
Qed.

(** C4 (amended): a note-only entry with empty text, location fields and
    a [note] key holding null or the empty string renders to the empty
    string, and a document renders the same with or without it, in both
    sections and for either value of the flag; alone in a document that
    has its title and authors it lets the transformer return. *)
Theorem silent_entry_contributes_nothing :
  single_entry_to_md (JDict fields) = Ok ""
  /\ (forall (doc doc' : list (string * json)) (pre post : list json) (flag : bool),
        dict_get doc "title" = dict_get doc' "title" ->
        dict_get doc "authors" = dict_get doc' "authors" ->
        dict_get doc "highlights" = Some (JList (pre ++ JDict fields :: post)) ->
        dict_get doc' "highlights" = Some (JList (pre ++ post)) ->
        kindle_to_md (JDict doc) flag = kindle_to_md (JDict doc') flag)
  /\ (forall (doc : list (string * json)) (title authors : json) (flag : bool),
        dict_get doc "title" = Some title ->
        dict_get doc "authors" = Some authors ->
        dict_get doc "highlights" = Some (JList [JDict fields]) ->
        exists md, kindle_to_md (JDict doc) flag = Ok md).
Proof.
  pose proof silent_entry_renders_nothing as Hsilent.
  assert (Hget : getitem (JDict fields) "note" = Ok note)
    by (unfold getitem; now rewrite Hnote).
  split; [exact Hsilent|]. split.
  - intros doc doc' pre post flag Ht Ha Hh Hh'.
    pose proof (with_notes_silent _ _ pre post Hget Hsilent) as Hkept.
    unfold kindle_to_md, getitem. rewrite Ht, Ha, Hh, Hh'.
    destruct (dict_get doc' "title") as [t|]; [|reflexivity].
    destruct (dict_get doc' "authors") as [a|]; [|reflexivity].
    simpl. destruct flag; simpl;
      [|now apply for_highlights_insert_silent].
    destruct (with_notes (pre ++ JDict fields :: post)) as [kept'|x'],
             (with_notes (pre ++ post)) as [kept|x]; simpl; try contradiction.
    + rewrite Hkept. destruct (for_highlights _ kept) as [md|x]; simpl;
        [now apply for_highlights_insert_silent | reflexivity].
    + subst x'. destruct x; reflexivity.
  - intros doc title authors flag Ht Ha Hh.
    unfold kindle_to_md, getitem. rewrite Ht, Ha, Hh. simpl.
    destruct flag; simpl; rewrite ?Hnote; simpl.
    + destruct (is_not_None note); simpl; rewrite ?Hsilent; simpl; eauto.
    + rewrite Hsilent. simpl. eauto.
Qed.

End SilentEntry.

(** ** A document without [highlights] *)

Section MissingHighlights.

Variable doc : list (string * json).
Variables title authors : json.
Hypothesis Htitle : dict_get doc "title" = Some title.
Hypothesis Hauthors : dict_get doc "authors" = Some authors.
Hypothesis Hmissing : dict_get doc "highlights" = None.

(** With the notes section on, the guarded subscript turns the missing
    key into the malformed-data error. *)
Lemma missing_highlights_notes_on :
  kindle_to_md (JDict doc) true
  = Raise (MisformattedKindleData (Some "Kindle export missing expected fields.")).
Proof.
  unfold kindle_to_md, getitem. rewrite Htitle, Hauthors, Hmissing. reflexivity.
Qed.

(** C9: with the notes section off, a document that has its title and
    authors but no [highlights] key makes the transformer raise the plain
    [KeyError] of the unguarded subscript; that is not the malformed-data
    error, and the top level does not catch it. *)
Theorem missing_highlights_notes_off :
  kindle_to_md (JDict doc) false = Raise (KeyError "highlights")
  /\ (forall m, KeyError "highlights" <> MisformattedKindleData m)
  /\ caught (KeyError "highlights") = None.
Proof.
  split; [|split; [discriminate | reflexivity]].
  unfold kindle_to_md, getitem. rewrite Htitle, Hauthors, Hmissing. reflexivity.
Qed.

End MissingHighlights.

(** C5: on [{"title":"T","authors":"A"}] the transformer raises the
    malformed-data error when the notes section is on, and a [KeyError]
    when it is off. *)
Theorem kindle_to_md_document_without_highlights :
  kindle_to_md document_without_highlights true
  = Raise (MisformattedKindleData (Some "Kindle export missing expected fields."))
  /\ kindle_to_md document_without_highlights false = Raise (KeyError "highlights").
Proof. split; reflexivity. Qed.

(** ** The writer *)

(** C7 (amended): when the write meets no failure, the writer without a
    path appends the text and one newline to standard output and leaves
    the files alone, and the writer with a path that can be opened binds
    the path to exactly the text, whatever the path held before, and
    leaves standard output alone.  When the path cannot be opened nothing
    changes and the exception of [open] is raised; when the write fails
    the destination holds what was delivered before the failure, nothing
    if the text could not be encoded, and the exception is raised. *)
Theorem write_output_destinations (output_text : string) (w : world) :
  (write_error None output_text = None ->
   write_output output_text None w
   = (World (files w) (stdout w +:+ output_text +:+ nl), None))
  /\ (forall path : string,
        open_error path Writing = None ->
        write_error (Some path) output_text = None ->
        write_output output_text (Some path) w
        = (World (<[path := output_text]> (files w)) (stdout w), None)
        /\ files (fst (write_output output_text (Some path) w)) !! path
           = Some output_text)
  /\ (forall (path : string) (error : exn),
        open_error path Writing = Some error ->
        write_output output_text (Some path) w = (w, Some error))
  /\ (forall (path : string) (error : exn) (delivered : string),
        open_error path Writing = None ->
        write_error (Some path) output_text = Some (error, delivered) ->
        write_output output_text (Some path) w
        = (World (<[path := delivered]> (files w)) (stdout w), Some error))
  /\ (forall (error : exn) (delivered : string),
        write_error None output_text = Some (error, delivered) ->
        write_output output_text None w
        = (World (files w) (stdout w +:+ delivered), Some error)).
Proof.
  unfold write_output. split; [|split; [|split; [|split]]].
  - intros Hwrite. now rewrite Hwrite.
  - intros path Hopen Hwrite. rewrite Hopen, Hwrite. split; [reflexivity|].
    simpl. apply lookup_insert_eq.
  - intros path error Hopen. now rewrite Hopen.
  - intros path error delivered Hopen Hwrite. now rewrite Hopen, Hwrite.
  - intros error delivered Hwrite. now rewrite Hwrite.
Qed.

(** ** Whole runs *)

Lemma main_raises (argv : list string) (w : world) (input_filename : string)
    (output_filename : option string) (text : string) (d : json) (error : exn) :
  parse_command_line_arguments argv = Ok (input_filename, output_filename) ->
  files w !! input_filename = Some text ->
  json_loads text = Ok d ->
  kindle_to_md d true = Raise error ->
  main argv w = match caught error with
                | Some message => (Exited 1, show_help (Some message) w)
                | None => (Uncaught error, w)
                end.
Proof.
  intros Hargs Hfile Hjson Hmd. unfold main, parse_json_file.
  rewrite Hargs. simpl. rewrite Hfile, Hjson. simpl. rewrite Hmd. reflexivity.
Qed.

(** ** A contradictory entry ends the run *)

Lemma contradictory_entry_raises (e : json) :
  is_contradictory e = true -> exists x, single_entry_to_md e = Raise x.
Proof.
  destruct e as [| | | | | |fields]; try discriminate.
  unfold is_contradictory, contradictory, single_entry_to_md, getitem, py_and, bind.
  destruct (dict_get fields "isNoteOnly") as [isNoteOnly|]; [|discriminate].
  destruct (dict_get fields "text") as [text|]; [|discriminate].
  destruct (truthy isNoteOnly), (eq_str text ""); try discriminate; intros _;
    destruct (dict_get fields "location") as [[| | | | | |loc]|]; simpl; eauto;
    destruct (dict_get loc "value"); simpl; eauto;
    destruct (dict_get loc "url"); simpl; eauto.
Qed.

Lemma shaped_entry_raises_malformed (e : json) (x : exn) :
  entry_shaped e = true -> single_entry_to_md e = Raise x ->
  exists m, x = MisformattedKindleData m.
Proof.
  destruct e as [| | | | | |fields]; try discriminate.
  unfold entry_shaped, single_entry_to_md, getitem, py_and, bind.
  destruct (dict_get fields "location") as [[| | | | | |loc]|];
    try discriminate; intros _; simpl; [|intros [= <-]; eauto].
  destruct (dict_get loc "value"); simpl; [|intros [= <-]; eauto].
  destruct (dict_get loc "url"); simpl; [|intros [= <-]; eauto].
  destruct (dict_get fields "isNoteOnly") as [isNoteOnly|]; simpl; [|intros [= <-]; eauto].
  destruct (dict_get fields "text") as [text|]; simpl;
    [|destruct (truthy isNoteOnly); simpl; intros [= <-]; eauto].
  destruct (dict_get fields "note") as [note|]; simpl;
    destruct (truthy isNoteOnly), (eq_str text ""); simpl;
    try (intros [= <-]; eauto);
    destruct (truthy note), (eq_str note ""); simpl; try discriminate.
Qed.

Lemma for_highlights_contradictory (es : list json) : forall acc,
  Exists (fun e => is_contradictory e = true) es ->
  exists x, for_highlights acc es = Raise x.
Proof.
  induction es as [|e es IH]; intros acc Hex; [inversion Hex|].
  simpl. destruct (single_entry_to_md e) as [md|x] eqn:He; simpl; [|eauto].
  inversion Hex as [? ? Hc|? ? Hrest]; subst.
  - destruct (contradictory_entry_raises e Hc) as [x Hx]. congruence.
  - now apply IH.
Qed.

Lemma for_highlights_shaped (es : list json) : forall acc x,
  Forall (fun e => entry_shaped e = true) es ->
  for_highlights acc es = Raise x ->
  exists m, x = MisformattedKindleData m.
Proof.
  induction es as [|e es IH]; intros acc x Hall; [discriminate|].
  inversion Hall as [|? ? He Hes]; subst. simpl.
  destruct (single_entry_to_md e) as [md|y] eqn:Hy; simpl.
  - now apply IH.
  - intros [= <-]. exact (shaped_entry_raises_malformed e y He Hy).
Qed.

Lemma with_notes_shaped (es : list json) :
  Forall (fun e => entry_shaped e = true) es ->
  match with_notes es with
  | Ok kept => Forall (fun e => entry_shaped e = true) kept
  | Raise (KeyError _) => True
  | Raise _ => False
  end.
Proof.
  induction 1 as [|e es He Hes IH]; simpl; [constructor|].
  destruct e as [| | | | | |fields]; try discriminate. unfold getitem at 1.
  destruct (dict_get fields "note") as [note|]; simpl; [|exact I].
  destruct (with_notes es) as [kept|x]; simpl; [|exact IH].
  destruct (is_not_None note); [constructor; assumption | exact IH].
Qed.

Section ContradictoryDocument.

Variable doc : list (string * json).
Variable entries : list json.
Hypothesis Hhighlights : dict_get doc "highlights" = Some (JList entries).
Hypothesis Hcontradictory : Exists (fun e => is_contradictory e = true) entries.

Lemma contradictory_document_raises (flag : bool) :
  exists x, kindle_to_md (JDict doc) flag = Raise x.
Proof.
  unfold kindle_to_md, getitem. rewrite Hhighlights.
  destruct (dict_get doc "title"); simpl; eauto.
  destruct (dict_get doc "authors"); simpl; eauto.
  destruct flag; simpl; [|now apply for_highlights_contradictory].
  destruct (with_notes entries) as [kept|[]]; simpl; eauto.
  destruct (for_highlights _ kept); simpl; eauto.
  now apply for_highlights_contradictory.
Qed.

Lemma contradictory_document_malformed (flag : bool) :
  Forall (fun e => entry_shaped e = true) entries ->
  exists m, kindle_to_md (JDict doc) flag = Raise (MisformattedKindleData m).
Proof.
  intros Hshaped.
  destruct (contradictory_document_raises flag) as [x Hx]. rewrite Hx.
  cut (exists m, x = MisformattedKindleData m); [intros [m ->]; eauto|].
  revert Hx. unfold kindle_to_md, getitem. rewrite Hhighlights.
  destruct (dict_get doc "title"); simpl; [|intros [= <-]; eauto].
  destruct (dict_get doc "authors"); simpl; [|intros [= <-]; eauto].
  pose proof (with_notes_shaped entries Hshaped) as Hkept.
  destruct flag; simpl; [|now apply for_highlights_shaped].
  destruct (with_notes entries) as [kept|[]]; simpl;
    try contradiction; [|intros [= <-]; eauto].
  destruct (for_highlights _ kept) as [md|y] eqn:Hy; simpl.
  - now apply for_highlights_shaped.
  - intros [= <-]. exact (for_highlights_shaped kept _ y Hkept Hy).
Qed.

(** C2: a run whose input parses to a document holding a contradictory
    entry renders nothing: the transformer raises, [main] does not
    return, the files are as they were, and standard output is either as
    it was or extended by an explanation and the usage text.  When the
    entries have the shape of the input format, what is raised is the
    malformed-data error, which the top level turns into its message and
    the usage text with exit status 1. *)
Theorem contradictory_entry_aborts_run (argv : list string) (w : world)
    (input_filename : string) (output_filename : option string) (text : string) :
  parse_command_line_arguments argv = Ok (input_filename, output_filename) ->
  files w !! input_filename = Some text ->
  json_loads text = Ok (JDict doc) ->
  (exists x, kindle_to_md (JDict doc) true = Raise x
             /\ fst (main argv w) <> Returned
             /\ files (snd (main argv w)) = files w
             /\ (snd (main argv w) = w
                 \/ exists message, snd (main argv w) = show_help (Some message) w))
  /\ (Forall (fun e => entry_shaped e = true) entries ->
      exists m, kindle_to_md (JDict doc) true = Raise (MisformattedKindleData m)
                /\ main argv w = (Exited 1, show_help (Some (exn_message m)) w)
                /\ files (snd (main argv w)) = files w
                /\ stdout (snd (main argv w))
                   = (stdout w +:+ (exn_message m +:+ nl) +:+ nl) +:+ help_text +:+ nl).
Proof.
  intros Hargs Hfile Hjson. split.
  - destruct (contradictory_document_raises true) as [x Hx]. exists x.
    split; [exact Hx|].
    rewrite (main_raises argv w _ _ _ _ _ Hargs Hfile Hjson Hx).
    destruct (caught x) as [message|]; simpl.
    + split; [discriminate|]. split; [reflexivity|]. right. eauto.
    + split; [discriminate|]. split; [reflexivity|]. now left.
  - intros Hshaped.
    destruct (contradictory_document_malformed true Hshaped) as [m Hm]. exists m.
    split; [exact Hm|].
    rewrite (main_raises argv w _ _ _ _ _ Hargs Hfile Hjson Hm). simpl.
    repeat split.
Qed.

End ContradictoryDocument.

(** * Further properties of the program *)

Lemma append_assoc (s t u : string) : (s +:+ t) +:+ u = s +:+ t +:+ u.
Proof.
  induction s as [|c s IH]; [reflexivity|].
  change (String c ((s +:+ t) +:+ u) = String c (s +:+ t +:+ u)). congruence.
Qed.

(** ** The argument resolver *)

(** X1: the argument list is accepted exactly when it holds the program
    name and one or two values; the first value is the input path and the
    second, when given, the output path.  Any other length raises
    [InvalidCommandLineArguments] with its message. *)
Theorem parse_command_line_arguments_cases (argv : list string) :
  parse_command_line_arguments argv
  = match argv with
    | [_; input_filename] => Ok (input_filename, None)
    | [_; input_filename; output_filename] =>
        Ok (input_filename, Some output_filename)
    | _ => Raise (InvalidCommandLineArguments
                    (Some "Incorrect number of command line arguments."))
    end.
Proof. destruct argv as [|a [|b [|c [|d rest]]]]; reflexivity. Qed.

(** ** Runs that stop before rendering *)

(** X2: with fewer than two or more than three arguments the run prints
    the message and the usage text and exits with status 1, whatever the
    files hold, and leaves every file as it was. *)
Theorem main_rejects_argument_count (argv : list string) (w : world) :
  (length argv < 2 \/ 3 < length argv)%nat ->
  main argv w
  = (Exited 1, show_help (Some "Incorrect number of command line arguments.") w)
  /\ files (snd (main argv w)) = files w.
Proof.
  intros Hlen.
  assert (Hargs : parse_command_line_arguments argv
                  = Raise (InvalidCommandLineArguments
                             (Some "Incorrect number of command line arguments."))).
  { unfold parse_command_line_arguments.
    destruct Hlen as [Hlen|Hlen].
    - apply Nat.ltb_lt in Hlen. now rewrite Hlen.
    - apply Nat.ltb_lt in Hlen. rewrite Hlen. now rewrite orb_true_r. }
  unfold main. rewrite Hargs. split; reflexivity.
Qed.

(** X3: when the input path holds no readable file, no file is changed,
    and: if nothing exists at the path the run prints the text of the
    [FileNotFoundError] and the usage text and exits with status 1; if
    [open] raises an exception that [main] does not name (the path is a
    directory, or may not be read), that exception leaves [main] and
    nothing is printed. *)
Theorem main_input_file_missing (argv : list string) (w : world)
    (input_filename : string) (output_filename : option string) :
  parse_command_line_arguments argv = Ok (input_filename, output_filename) ->
  files w !! input_filename = None ->
  (open_error input_filename Reading = None ->
   main argv w
   = (Exited 1,
      show_help (Some ("[Errno 2] No such file or directory: "
                       +:+ py_repr (JStr input_filename))) w))
  /\ (forall error : exn,
        open_error input_filename Reading = Some error ->
        caught error = None ->
        main argv w = (Uncaught error, w))
  /\ files (snd (main argv w)) = files w.
Proof.
  intros Hargs Hfile. unfold main, parse_json_file.
  rewrite Hargs. simpl. rewrite Hfile.
  destruct (open_error input_filename Reading) as [error|]; simpl.
  - split; [discriminate|]. split.
    + intros ? [= <-] Hcaught. unfold top_level. now rewrite Hcaught.
    + unfold top_level. now destruct (caught error).
  - split; [reflexivity|]. split; [discriminate | reflexivity].
Qed.

(** X4: when the input file is read and [json.load] raises
    [JSONDecodeError], the run prints "Input file is not a valid JSON
    document.", the usage text, and exits with status 1; when it raises
    another exception that [main] does not name ([UnicodeDecodeError],
    [ValueError]), that exception leaves [main] and nothing is printed.
    No file is changed in either case. *)
Theorem main_input_not_json (argv : list string) (w : world)
    (input_filename : string) (output_filename : option string) (text : string)
    (error : exn) :
  parse_command_line_arguments argv = Ok (input_filename, output_filename) ->
  files w !! input_filename = Some text ->
  json_loads text = Raise error ->
  (error = JSONDecodeError ->
   main argv w
   = (Exited 1, show_help (Some "Input file is not a valid JSON document.") w))
  /\ (error <> JSONDecodeError -> caught error = None ->
      main argv w = (Uncaught error, w))
  /\ files (snd (main argv w)) = files w.
Proof.
  intros Hargs Hfile Hjson. unfold main, parse_json_file.
  rewrite Hargs. simpl. rewrite Hfile, Hjson.
  destruct error; simpl; (split; [|split]);
    try reflexivity; try discriminate; try (intros; reflexivity);
    try (intros Hne; now destruct Hne);
    try (intros _ Hcaught; simpl in Hcaught; discriminate Hcaught).
Qed.

(** ** What the single-entry renderer writes *)

Lemma truthy_not_empty (v : json) : truthy v = true -> eq_str v "" = false.
Proof.
  destruct v; simpl; try reflexivity. intros H. now apply negb_true_iff in H.
Qed.

Section RenderedEntry.

Variables (fields loc : list (string * json)).
Variables (value url isNoteOnly text note : json).
Hypothesis Hlocation : dict_get fields "location" = Some (JDict loc).
Hypothesis Hvalue : dict_get loc "value" = Some value.
Hypothesis Hurl : dict_get loc "url" = Some url.
Hypothesis HisNoteOnly : dict_get fields "isNoteOnly" = Some isNoteOnly.
Hypothesis Htext : dict_get fields "text" = Some text.
Hypothesis Hnote : dict_get fields "note" = Some note.

(** X7: an entry with all its keys that is not contradictory renders as
    follows.  A note-only entry gives the line [- Note: <note> (<link>)]
    when its note is truthy and nothing otherwise; a highlight gives the
    line [- <text> (<link>)], followed by the indented line
    [    - Note: <note>] when its note is truthy.  The link is
    [[<value>](<url>)]. *)
Theorem single_entry_rendering :
  contradictory isNoteOnly text = false ->
  single_entry_to_md (JDict fields)
  = Ok (let kindle_link := "[" +:+ fmt value +:+ "](" +:+ fmt url +:+ ")" in
        if truthy isNoteOnly then
          if truthy note
          then "- Note: " +:+ fmt note +:+ " (" +:+ kindle_link +:+ ")" +:+ nl
          else ""
        else
          ("- " +:+ fmt text +:+ " (" +:+ kindle_link +:+ ")" +:+ nl)
          +:+ (if truthy note then "    - Note: " +:+ fmt note +:+ nl else "")).
Proof.
  unfold contradictory, single_entry_to_md, getitem, py_and, bind.
  known_fields. simpl. known_fields.
  destruct (truthy isNoteOnly), (eq_str text ""); simpl; intros Hc;
    try discriminate Hc; known_fields;
    destruct (truthy note) eqn:Hn; simpl;
    rewrite ?(truthy_not_empty note Hn); simpl; known_fields;
    rewrite ?append_empty_r; reflexivity.
Qed.

End RenderedEntry.

(** X8: an object entry that lacks [location], or whose location object
    lacks [value] or [url], or that lacks [isNoteOnly] or [text], is
    refused with the message "Kindle export missing expeced fields.",
    whatever its other keys hold. *)
Theorem single_entry_missing_key (fields : list (string * json)) :
  (dict_get fields "location" = None
   \/ exists loc, dict_get fields "location" = Some (JDict loc)
                  /\ (dict_get loc "value" = None
                      \/ dict_get loc "url" = None
                      \/ dict_get fields "isNoteOnly" = None
                      \/ dict_get fields "text" = None)) ->
  single_entry_to_md (JDict fields)
  = Raise (MisformattedKindleData (Some "Kindle export missing expeced fields.")).
Proof.
  unfold single_entry_to_md, getitem, py_and, bind.
  intros [Hloc|(loc & Hloc & Hmissing)]; rewrite Hloc; simpl; [reflexivity|].
  destruct (dict_get loc "value") as [value|] eqn:Hvalue; simpl; [|reflexivity].
  destruct (dict_get loc "url") as [url|] eqn:Hurl; simpl; [|reflexivity].
  destruct (dict_get fields "isNoteOnly") as [isNoteOnly|] eqn:Hi; simpl;
    [|reflexivity].
  destruct (dict_get fields "text") as [text|] eqn:Ht; simpl.
  - destruct Hmissing as [H|[H|[H|H]]]; discriminate H.
  - destruct (truthy isNoteOnly); reflexivity.
Qed.

(** ** Exceptions that no handler of the program names *)

Lemma rendering_bind {A B : Type} (r : result A) (k : A -> result B) :
  rendering_result r = true ->
  (forall a, rendering_result (k a) = true) ->
  rendering_result (bind r k) = true.
Proof. destruct r as [a|e]; simpl; auto. Qed.

Lemma rendering_getitem (obj : json) (key : string) :
  rendering_result (getitem obj key) = true.
Proof.
  destruct obj; try reflexivity. simpl. now destruct (dict_get fields key).
Qed.

Lemma rendering_py_and (a b : result bool) :
  rendering_result a = true -> rendering_result b = true ->
  rendering_result (py_and a b) = true.
Proof.
  intros Ha Hb. unfold py_and. apply rendering_bind; [exact Ha|].
  now intros [|].
Qed.

Lemma rendering_truth (obj : json) (key : string) (test : json -> bool) :
  rendering_result (do v <- getitem obj key; Ok (test v)) = true.
Proof. apply rendering_bind; [apply rendering_getitem | reflexivity]. Qed.

Lemma single_entry_raises_only (e : json) (x : exn) :
  single_entry_to_md e = Raise x ->
  x = TypeError \/ exists m, x = MisformattedKindleData m.
Proof.
  unfold single_entry_to_md.
  match goal with
  | |- except_KeyError ?body _ = _ -> _ =>
      assert (Hbody : rendering_result body = true); [|destruct body as [s|y]]
  end.
  - repeat first
      [ apply rendering_getitem
      | apply rendering_truth
      | apply rendering_py_and
      | apply rendering_bind; [|intros ?]
      | match goal with |- rendering_result (if ?c then _ else _) = true =>
          destruct c end
      | reflexivity ].
  - discriminate.
  - destruct y; try discriminate Hbody; simpl; intros [= <-]; eauto.
Qed.

(** X9: the renderer raises [TypeError] exactly on the entries that are
    not objects or whose [location] is present but not an object. *)
Theorem single_entry_type_error_iff (e : json) :
  single_entry_to_md e = Raise TypeError <-> entry_shaped e = false.
Proof.
  split.
  - intros Hraise. destruct (entry_shaped e) eqn:Hshape; [|reflexivity].
    destruct (shaped_entry_raises_malformed e TypeError Hshape Hraise) as [m Hm].
    discriminate Hm.
  - destruct e as [| | | | | |fields]; try reflexivity.
    unfold entry_shaped, single_entry_to_md, getitem, bind.
    destruct (dict_get fields "location") as [[| | | | | |loc]|];
      try discriminate; reflexivity.
Qed.

(** ** The two sections of the document *)

Lemma rendered_entry_has_note (e : json) (s : string) :
  single_entry_to_md e = Ok s -> exists note, getitem e "note" = Ok note.
Proof.
  destruct e as [| | | | | |fields]; try discriminate.
  destruct (dict_get fields "note") as [note|] eqn:Hnote;
    [intros _; exists note; unfold getitem; now rewrite Hnote|].
  unfold single_entry_to_md, getitem, py_and, bind.
  destruct (dict_get fields "location") as [[| | | | | |loc]|]; simpl;
    try discriminate.
  destruct (dict_get loc "value"); simpl; try discriminate.
  destruct (dict_get loc "url"); simpl; try discriminate.
  destruct (dict_get fields "isNoteOnly") as [i|]; simpl; try discriminate.
  destruct (dict_get fields "text") as [t|]; simpl;
    [|destruct (truthy i); discriminate].
  destruct (truthy i), (eq_str t ""); simpl; rewrite ?Hnote; simpl; discriminate.
Qed.

Lemma with_notes_filter (es : list json) :
  Forall (fun e => exists note, getitem e "note" = Ok note) es ->
  with_notes es = Ok (List.filter has_note es).
Proof.
  induction 1 as [|e es [note He] _ IH]; [reflexivity|].
  simpl. unfold has_note. rewrite He, IH. reflexivity.
Qed.

(** X10: the comprehension returns exactly when every element is an
    object with a [note] key, and then it keeps, in their order, the
    elements whose note is not null: an empty-string note is kept. *)
Theorem with_notes_is_filter (es kept : list json) :
  with_notes es = Ok kept
  <-> Forall (fun e => exists note, getitem e "note" = Ok note) es
      /\ kept = List.filter has_note es.
Proof.
  split.
  - revert kept. induction es as [|e es IH]; simpl; intros kept.
    + intros [= <-]. split; [constructor | reflexivity].
    + unfold has_note. destruct (getitem e "note") as [note|x] eqn:He; simpl;
        [|discriminate].
      destruct (with_notes es) as [kept'|x]; simpl; [|discriminate].
      destruct (IH kept' eq_refl) as [Hall ->]. intros [= <-].
      split; [constructor; eauto | reflexivity].
  - intros [Hall ->]. now apply with_notes_filter.
Qed.

Lemma Forall_list_filter {A : Type} (P : A -> Prop) (f : A -> bool) (l : list A) :
  Forall P l -> Forall P (List.filter f l).
Proof.
  induction 1 as [|a l Ha _ IH]; simpl; [constructor|].
  destruct (f a); [constructor|]; assumption.
Qed.

Lemma for_highlights_rendered (r : json -> string) (es : list json) : forall acc,
  Forall (fun e => single_entry_to_md e = Ok (r e)) es ->
  for_highlights acc es = Ok (acc +:+ join (map r es)).
Proof.
  induction es as [|e es IH]; intros acc Hall; simpl.
  - now rewrite append_empty_r.
  - inversion Hall as [|? ? He Hes]; subst. rewrite He. simpl.
    rewrite (IH _ Hes). now rewrite append_assoc.
Qed.

(** X11: when every entry renders, the document is the title line, the
    authors line, then (with the notes section on) the heading
    "Highlights with Notes", the renderings of the entries whose note is
    not null and a blank separator, then the heading "All Highlights" and
    the renderings of all the entries, each list in the order of the
    input. *)
Theorem kindle_to_md_layout (doc : list (string * json)) (title authors : json)
    (es : list json) (r : json -> string) (flag : bool) :
  dict_get doc "title" = Some title ->
  dict_get doc "authors" = Some authors ->
  dict_get doc "highlights" = Some (JList es) ->
  Forall (fun e => single_entry_to_md e = Ok (r e)) es ->
  kindle_to_md (JDict doc) flag
  = Ok ("# " +:+ fmt title +:+ nl +:+ nl +:+
        "Authors: " +:+ fmt authors +:+ nl +:+ nl +:+
        (if flag
         then "## Highlights with Notes" +:+ nl +:+ nl +:+
              join (map r (List.filter has_note es)) +:+ nl +:+ nl
         else "") +:+
        "## All Highlights" +:+ nl +:+ nl +:+ join (map r es)).
Proof.
  intros Ht Ha Hh Hall.
  assert (Hnotes : with_notes es = Ok (List.filter has_note es)).
  { apply with_notes_filter. eapply Forall_impl; [exact Hall|].
    intros e He. exact (rendered_entry_has_note e _ He). }
  unfold kindle_to_md, getitem. rewrite Ht, Ha, Hh. simpl.
  destruct flag; simpl.
  - rewrite Hnotes. simpl.
    rewrite (for_highlights_rendered r _ _ (Forall_list_filter _ has_note es Hall)).
    simpl. rewrite (for_highlights_rendered r es _ Hall).
    f_equal. now rewrite !append_assoc.
  - rewrite (for_highlights_rendered r es _ Hall).
    f_equal. now rewrite !append_assoc.
Qed.

(** ** When the transformer returns *)

Lemma for_highlights_ok_iff (es : list json) : forall acc,
  (exists s, for_highlights acc es = Ok s)
  <-> Forall (fun e => exists r, single_entry_to_md e = Ok r) es.
Proof.
  induction es as [|e es IH]; intros acc; simpl.
  - split; [constructor | eauto].
  - destruct (single_entry_to_md e) as [md|x] eqn:He; simpl.
    + rewrite IH. split.
      * intros Hes. constructor; eauto.
      * intros Hall. inversion Hall; assumption.
    + split; [intros [s Hs]; discriminate|].
      intros Hall. inversion Hall as [|? ? [r Hr] _]. congruence.
Qed.

(** X12: for either value of the flag, the transformer returns exactly
    when the document is an object with [title] and [authors], its
    [highlights] can be iterated, and the renderer accepts every element;
    the flag never decides whether a document is accepted. *)
Theorem kindle_to_md_returns_iff (d : json) (flag : bool) :
  (exists md, kindle_to_md d flag = Ok md)
  <-> exists doc title authors highlights items,
        d = JDict doc
        /\ dict_get doc "title" = Some title
        /\ dict_get doc "authors" = Some authors
        /\ dict_get doc "highlights" = Some highlights
        /\ iter highlights = Ok items
        /\ Forall (fun e => exists r, single_entry_to_md e = Ok r) items.
Proof.
  split.
  - destruct d as [| | | | | |doc]; try (intros [md Hmd]; discriminate).
    unfold kindle_to_md, getitem.
    destruct (dict_get doc "title") as [title|] eqn:Ht;
      [|intros [md Hmd]; discriminate].
    destruct (dict_get doc "authors") as [authors|] eqn:Ha;
      [|intros [md Hmd]; discriminate].
    destruct (dict_get doc "highlights") as [h|] eqn:Hh;
      [|destruct flag; intros [md Hmd]; discriminate].
    destruct (iter h) as [items|x] eqn:Hiter;
      [|destruct flag; simpl; rewrite ?Hiter; [destruct x|];
        intros [md Hmd]; discriminate].
    intros Hok. exists doc, title, authors, h, items. repeat split; trivial.
    simpl in Hok. destruct flag; simpl in Hok; rewrite ?Hiter in Hok; simpl in Hok.
    + destruct (with_notes items) as [kept|[]]; simpl in Hok;
        try (destruct Hok; discriminate).
      destruct (for_highlights _ kept) as [md1|x]; simpl in Hok;
        [|destruct Hok; discriminate].
      now apply for_highlights_ok_iff in Hok.
    + now apply for_highlights_ok_iff in Hok.
  - intros (doc & title & authors & h & items & -> & Ht & Ha & Hh & Hiter & Hall).
    unfold kindle_to_md, getitem. rewrite Ht, Ha, Hh. simpl.
    destruct flag; simpl; rewrite Hiter; simpl;
      [|now apply for_highlights_ok_iff].
    rewrite with_notes_filter.
    + simpl.
      match goal with
      | |- context [for_highlights ?acc (List.filter has_note items)] =>
          destruct (proj2 (for_highlights_ok_iff (List.filter has_note items) acc)
                      (Forall_list_filter _ has_note items Hall)) as [md1 Hmd1];
          rewrite Hmd1
      end.
      simpl. now apply for_highlights_ok_iff.
    + eapply Forall_impl; [exact Hall|].
      intros e [r Hr]. exact (rendered_entry_has_note e r Hr).
Qed.

(** ** Which exceptions leave the transformer *)

Lemma for_highlights_raises_only (es : list json) : forall acc x,
  for_highlights acc es = Raise x ->
  x = TypeError \/ exists m, x = MisformattedKindleData m.
Proof.
  induction es as [|e es IH]; intros acc x; simpl; [discriminate|].
  destruct (single_entry_to_md e) as [md|y] eqn:Hy; simpl; [apply IH|].
  intros [= <-]. exact (single_entry_raises_only e y Hy).
Qed.

Lemma with_notes_raises_only (es : list json) (x : exn) :
  with_notes es = Raise x -> x = TypeError \/ x = KeyError "note".
Proof.
  induction es as [|e es IH]; simpl; [discriminate|].
  destruct e; simpl; try (intros [= <-]; now left).
  destruct (dict_get fields "note"); simpl; [|intros [= <-]; now right].
  destruct (with_notes es); simpl; [discriminate | assumption].
Qed.

Lemma iter_raises_only (h : json) (x : exn) : iter h = Raise x -> x = TypeError.
Proof. destruct h; simpl; try discriminate; now intros [= <-]. Qed.

Lemma kindle_to_md_default_raises_only (d : json) (x : exn) :
  kindle_to_md d true = Raise x ->
  x = TypeError \/ exists m, x = MisformattedKindleData m.
Proof.
  destruct d as [| | | | | |doc]; try (intros [= <-]; now left).
  unfold kindle_to_md, getitem.
  destruct (dict_get doc "title"); simpl; [|intros [= <-]; eauto].
  destruct (dict_get doc "authors"); simpl; [|intros [= <-]; eauto].
  destruct (dict_get doc "highlights") as [h|]; simpl; [|intros [= <-]; eauto].
  destruct (iter h) as [items|y] eqn:Hiter; simpl.
  - destruct (with_notes items) as [kept|y] eqn:Hkept; simpl.
    + destruct (for_highlights _ kept) as [md1|y] eqn:Hy; simpl.
      * apply for_highlights_raises_only.
      * intros [= <-]. exact (for_highlights_raises_only kept _ y Hy).
    + destruct (with_notes_raises_only items y Hkept) as [-> | ->]; simpl;
        intros [= <-]; eauto.
  - rewrite (iter_raises_only h y Hiter). simpl. intros [= <-]. now left.
Qed.

(** X13: a [KeyError] leaves the transformer in one case only: the notes
    section is off and the document is an object with [title] and
    [authors] but no [highlights]; the key it names is "highlights".
    With the notes section on no [KeyError] ever leaves it. *)
Theorem kindle_to_md_key_error_iff (d : json) (flag : bool) (key : string) :
  kindle_to_md d flag = Raise (KeyError key)
  <-> flag = false /\ key = "highlights"
      /\ exists doc title authors,
           d = JDict doc
           /\ dict_get doc "title" = Some title
           /\ dict_get doc "authors" = Some authors
           /\ dict_get doc "highlights" = None.
Proof.
  split.
  - destruct flag.
    + intros Hraise.
      destruct (kindle_to_md_default_raises_only d _ Hraise) as [H|[m H]];
        discriminate H.
    + destruct d as [| | | | | |doc]; try discriminate.
      unfold kindle_to_md, getitem.
      destruct (dict_get doc "title") as [title|] eqn:Ht; simpl; [|discriminate].
      destruct (dict_get doc "authors") as [authors|] eqn:Ha; simpl; [|discriminate].
      destruct (dict_get doc "highlights") as [h|] eqn:Hh; simpl.
      * destruct (iter h) as [items|y] eqn:Hiter; simpl.
        -- intros Hraise.
           destruct (for_highlights_raises_only items _ _ Hraise) as [H|[m H]];
             discriminate H.
        -- rewrite (iter_raises_only h y Hiter). discriminate.
      * intros [= <-]. repeat split. exists doc, title, authors. auto.
  - intros (-> & -> & doc & title & authors & -> & Ht & Ha & Hh).
    unfold kindle_to_md, getitem. rewrite Ht, Ha, Hh. reflexivity.
Qed.

(** ** What a run can change *)











(** ** Documents of the wrong shape *)

(** X15: an object without [title] or without [authors] is refused with
    "Kindle export missing title or author fields." for either value of
    the flag, whatever else it holds: the header is read before the
    highlights are looked at. *)
Theorem kindle_to_md_missing_header (doc : list (string * json)) (flag : bool) :
  dict_get doc "title" = None \/ dict_get doc "authors" = None ->
  kindle_to_md (JDict doc) flag
  = Raise (MisformattedKindleData
             (Some "Kindle export missing title or author fields.")).
Proof.
  unfold kindle_to_md, getitem. intros [Hmissing|Hmissing]; rewrite Hmissing.
  - reflexivity.
  - now destruct (dict_get doc "title").
Qed.

(** X16: when [highlights] is not an array, the empty string and the
    empty object are taken for an empty list of entries, and every other
    value (null, a boolean, a number, a non-empty string or object) makes
    the transformer raise [TypeError], for either value of the flag. *)
Theorem kindle_to_md_highlights_not_a_list (doc : list (string * json))
    (title authors h : json) (flag : bool) :
  dict_get doc "title" = Some title ->
  dict_get doc "authors" = Some authors ->
  dict_get doc "highlights" = Some h ->
  (forall items, h <> JList items) ->
  kindle_to_md (JDict doc) flag
  = match h with
    | JStr EmptyString | JDict [] =>
        Ok ("# " +:+ fmt title +:+ nl +:+ nl +:+
            "Authors: " +:+ fmt authors +:+ nl +:+ nl +:+
            (if flag then "## Highlights with Notes" +:+ nl +:+ nl +:+ nl +:+ nl
             else "") +:+
            "## All Highlights" +:+ nl +:+ nl)
    | _ => Raise TypeError
    end.
Proof.
  intros Ht Ha Hh Hlist. unfold kindle_to_md, getitem. rewrite Ht, Ha, Hh. simpl.
  destruct h as [| | | |s|items|fields]; try (destruct flag; reflexivity).
  - destruct s as [|c s]; destruct flag; simpl; rewrite ?append_empty_r,
      ?append_assoc; reflexivity.
  - now destruct (Hlist items).
  - destruct fields as [|[k v] fields]; destruct flag; simpl;
      rewrite ?append_empty_r, ?append_assoc; reflexivity.
Qed.

Lemma with_notes_type_error (pre post : list json) (e : json) :
  Forall (fun p => exists note, getitem p "note" = Ok note) pre ->
  (forall fields, e <> JDict fields) ->
  with_notes (pre ++ e :: post) = Raise TypeError.
Proof.
  intros Hpre He. induction Hpre as [|p pre [note Hp] _ IH]; simpl.
  - destruct e; try reflexivity. now destruct (He fields).
  - rewrite Hp, IH. reflexivity.
Qed.

(** X17: an element of [highlights] that is not an object, standing after
    objects that all have a [note] key, makes the transformer raise
    [TypeError] while it selects the entries with notes, before any entry
    is rendered; the run then ends with that exception uncaught: no usage
    text, nothing printed, no file changed. *)
Theorem non_object_entry_is_uncaught (doc : list (string * json))
    (title authors : json) (pre post : list json) (e : json) :
  dict_get doc "title" = Some title ->
  dict_get doc "authors" = Some authors ->
  dict_get doc "highlights" = Some (JList (pre ++ e :: post)) ->
  Forall (fun p => exists note, getitem p "note" = Ok note) pre ->
  (forall fields, e <> JDict fields) ->
  kindle_to_md (JDict doc) true = Raise TypeError
  /\ (forall (argv : list string) (w : world) (input_filename : string)
         (output_filename : option string) (text : string),
        parse_command_line_arguments argv = Ok (input_filename, output_filename) ->
        files w !! input_filename = Some text ->
        json_loads text = Ok (JDict doc) ->
        main argv w = (Uncaught TypeError, w)).
Proof.
  intros Ht Ha Hh Hpre He.
  assert (Hraise : kindle_to_md (JDict doc) true = Raise TypeError).
  { unfold kindle_to_md, getitem. rewrite Ht, Ha, Hh. simpl.
    now rewrite (with_notes_type_error pre post e Hpre He). }
  split; [exact Hraise|].
  intros argv w i o text Hargs Hfile Hjson.
  now rewrite (main_raises argv w _ _ _ _ _ Hargs Hfile Hjson Hraise).
Qed.

End Program.

(** * The properties at concrete inputs *)

(** The run on a document whose only entry is note-only with text. *)
Lemma contradictory_entry_aborts_run_witness :
  exists m,
    kindle_to_md repr_unused (document_of [contradictory_highlight]) true
    = Raise (MisformattedKindleData m)
    /\ main repr_unused (loads_as (document_of [contradictory_highlight]))
            no_open_error no_write_error argv_to_file sample_world
       = (Exited 1, show_help (Some (exn_message m)) sample_world)
    /\ files (snd (main repr_unused (loads_as (document_of [contradictory_highlight]))
                        no_open_error no_write_error argv_to_file sample_world))
       = files sample_world
    /\ stdout (snd (main repr_unused (loads_as (document_of [contradictory_highlight]))
                         no_open_error no_write_error argv_to_file sample_world))
       = (stdout sample_world +:+ (exn_message m +:+ nl) +:+ nl) +:+ help_text +:+ nl.
Proof.
  refine (proj2 (contradictory_entry_aborts_run repr_unused
                   (loads_as (document_of [contradictory_highlight]))
                   no_open_error no_write_error
                   [("title", JStr "T"); ("authors", JStr "A");
                    ("highlights", JList [contradictory_highlight])]
                   [contradictory_highlight] eq_refl
                   (Exists_cons_hd _ contradictory_highlight [] eq_refl)
                   argv_to_file sample_world "in.json" (Some "out.md") "{}"
                   eq_refl eq_refl eq_refl) _).
  repeat constructor.
Defined.

(** The plain highlight has all its keys and is not contradictory. *)
Lemma single_entry_fails_iff_contradictory_witness :
  ((exists m, single_entry_to_md repr_unused plain_highlight
              = Raise (MisformattedKindleData m))
   <-> contradictory (JBool false) (JStr "Hi") = true)
  /\ (contradictory (JBool false) (JStr "Hi") = false ->
      exists s, single_entry_to_md repr_unused plain_highlight = Ok s).
Proof.
  apply (single_entry_fails_iff_contradictory repr_unused
           [("text", JStr "Hi"); ("note", JNull); ("isNoteOnly", JBool false);
            ("location", location_12)]
           [("value", JStr "12"); ("url", JStr "http://x")]
           (JStr "12") (JStr "http://x") (JBool false) (JStr "Hi") JNull);
    reflexivity.
Defined.

(** C3 as stated fails on an entry without a [note] key: its location
    fields are present and it is not contradictory, yet the renderer
    raises the malformed-data error. *)
Lemma single_entry_absent_note_counterexample :
  (do location <- getitem note_only_without_note "location";
   do value <- getitem location "value";
   do url <- getitem location "url";
   Ok (value, url)) = Ok (JStr "12", JStr "http://x")
  /\ getitem note_only_without_note "isNoteOnly" = Ok (JBool true)
  /\ getitem note_only_without_note "text" = Ok (JStr "")
  /\ contradictory (JBool true) (JStr "") = false
  /\ single_entry_to_md repr_unused note_only_without_note
     = Raise (MisformattedKindleData (Some "Kindle export missing expeced fields.")).
Proof. repeat split. Qed.

(** The note-only entry with a null note is silent. *)
Lemma silent_entry_contributes_nothing_witness :
  single_entry_to_md repr_unused note_only_null_note = Ok ""
  /\ kindle_to_md repr_unused (document_of [plain_highlight; note_only_null_note]) true
     = kindle_to_md repr_unused (document_of [plain_highlight]) true
  /\ exists md, kindle_to_md repr_unused (document_of [note_only_null_note]) true = Ok md.
Proof.
  pose proof (silent_entry_contributes_nothing repr_unused
           [("text", JStr ""); ("note", JNull); ("isNoteOnly", JBool true);
            ("location", location_12)]
           [("value", JStr "12"); ("url", JStr "http://x")]
           (JStr "12") (JStr "http://x") (JBool true) (JStr "") JNull
           eq_refl eq_refl eq_refl eq_refl eq_refl eq_refl eq_refl eq_refl
           (or_introl eq_refl)) as [Hentry [Hsame Halone]].
  split; [exact Hentry|]. split.
  - apply (Hsame _ _ [plain_highlight] [] true); reflexivity.
  - apply (Halone _ (JStr "T") (JStr "A") true); reflexivity.
Defined.

(** C4 as stated fails when the [note] key is absent: the transformer
    raises the malformed-data error, from the comprehension when the
    notes section is on and from the renderer when it is off. *)
Lemma absent_note_counterexample :
  getitem note_only_without_note "note" = Raise (KeyError "note")
  /\ kindle_to_md repr_unused (document_of [note_only_without_note]) true
     = Raise (MisformattedKindleData (Some "Kindle export missing expected fields."))
  /\ kindle_to_md repr_unused (document_of [note_only_without_note]) false
     = Raise (MisformattedKindleData (Some "Kindle export missing expeced fields.")).
Proof. repeat split. Qed.

(** A write that meets no failure replaces what the file held. *)
Lemma write_output_destinations_witness :
  files (fst (write_output no_open_error no_write_error "# T" (Some "out.md") busy_world))
    !! "out.md" = Some "# T".
Proof.
  exact (proj2 (proj1 (proj2 (write_output_destinations no_open_error no_write_error
                                "# T" busy_world))
                      "out.md" eq_refl eq_refl)).
Defined.

(** C7 as stated fails where the write cannot be carried out.  With the
    output path in a directory that does not exist, [open] raises
    [FileNotFoundError] and no file is created.  With a text that holds a
    lone surrogate, [open] has emptied the file when the write raises
    [UnicodeEncodeError]: the file holds nothing, not the text. *)
Lemma write_output_failure_counterexample :
  write_output missing_directory no_write_error "# T" (Some "nodir/out.md") sample_world
  = (sample_world, Some (FileNotFoundError "nodir/out.md"))
  /\ files (fst (write_output missing_directory no_write_error "# T"
                   (Some "nodir/out.md") sample_world)) !! "nodir/out.md" = None
  /\ snd (write_output no_open_error (unencodable lone_surrogate) lone_surrogate
            (Some "out.md") busy_world) = Some UnicodeEncodeError
  /\ files (fst (write_output no_open_error (unencodable lone_surrogate) lone_surrogate
                   (Some "out.md") busy_world)) !! "out.md" = Some "".
Proof. repeat split. Qed.

Lemma missing_highlights_notes_off_witness :
  kindle_to_md repr_unused document_without_highlights false
  = Raise (KeyError "highlights")
  /\ (forall m, KeyError "highlights" <> MisformattedKindleData m)
  /\ caught repr_unused (KeyError "highlights") = None.
Proof.
  apply (missing_highlights_notes_off repr_unused
           [("title", JStr "T"); ("authors", JStr "A")] (JStr "T") (JStr "A"));
    reflexivity.
Defined.

Lemma contradictory_error_has_empty_message_witness :
  single_entry_to_md repr_unused contradictory_highlight
  = Raise (MisformattedKindleData None).
Proof.
  exact (proj1 (contradictory_error_has_empty_message repr_unused
           [("text", JStr "something"); ("note", JNull); ("isNoteOnly", JBool true);
            ("location", location_12)]
           [("value", JStr "12"); ("url", JStr "http://x")]
           (JStr "12") (JStr "http://x") (JBool true) (JStr "something")
           eq_refl eq_refl eq_refl eq_refl eq_refl sample_world eq_refl)).
Defined.

(** * The further properties at concrete inputs *)

Lemma main_rejects_argument_count_witness :
  main repr_unused (loads_as empty_document) no_open_error no_write_error
       ["kindle-to-md"] sample_world
  = (Exited 1,
     show_help (Some "Incorrect number of command line arguments.") sample_world)
  /\ files (snd (main repr_unused (loads_as empty_document) no_open_error
                      no_write_error ["kindle-to-md"] sample_world))
     = files sample_world.
Proof.
  apply (main_rejects_argument_count repr_unused (loads_as empty_document)
           no_open_error no_write_error ["kindle-to-md"] sample_world).
  left. simpl. lia.
Defined.

(** Nothing exists at the input path. *)
Lemma main_input_file_missing_witness :
  main repr_unused (loads_as empty_document) no_open_error no_write_error
       argv_to_file empty_world
  = (Exited 1,
     show_help (Some ("[Errno 2] No such file or directory: "
                      +:+ repr_unused (JStr "in.json"))) empty_world).
Proof.
  exact (proj1 (main_input_file_missing repr_unused (loads_as empty_document)
                  no_open_error no_write_error
                  argv_to_file empty_world "in.json" (Some "out.md")
                  eq_refl eq_refl) eq_refl).
Defined.

(** The content of the input file is not JSON. *)
Lemma main_input_not_json_witness :
  main repr_unused (fun _ => Raise JSONDecodeError) no_open_error no_write_error
       argv_to_file sample_world
  = (Exited 1,
     show_help (Some "Input file is not a valid JSON document.") sample_world).
Proof.
  exact (proj1 (main_input_not_json repr_unused (fun _ => Raise JSONDecodeError)
                  no_open_error no_write_error
                  argv_to_file sample_world "in.json" (Some "out.md") "{}"
                  JSONDecodeError eq_refl eq_refl eq_refl) eq_refl).
Defined.



Lemma single_entry_rendering_witness :
  single_entry_to_md repr_unused noted_highlight
  = Ok (("- Hi ([12](http://x))" +:+ nl) +:+ "    - Note: thought" +:+ nl).
Proof.
  apply (single_entry_rendering repr_unused
           [("text", JStr "Hi"); ("note", JStr "thought"); ("isNoteOnly", JBool false);
            ("location", location_12)]
           [("value", JStr "12"); ("url", JStr "http://x")]
           (JStr "12") (JStr "http://x") (JBool false) (JStr "Hi") (JStr "thought"));
    reflexivity.
Defined.

Lemma single_entry_missing_key_witness :
  single_entry_to_md repr_unused
    (JDict [("text", JStr "Hi"); ("note", JNull); ("isNoteOnly", JBool false)])
  = Raise (MisformattedKindleData (Some "Kindle export missing expeced fields.")).
Proof.
  apply (single_entry_missing_key repr_unused
           [("text", JStr "Hi"); ("note", JNull); ("isNoteOnly", JBool false)]).
  left. reflexivity.
Defined.

Lemma single_entry_type_error_iff_witness :
  single_entry_to_md repr_unused (JInt 5) = Raise TypeError.
Proof.
  apply (proj2 (single_entry_type_error_iff repr_unused (JInt 5))). reflexivity.
Defined.

Lemma with_notes_is_filter_witness :
  with_notes [plain_highlight; noted_highlight; note_only_null_note]
  = Ok [noted_highlight].
Proof.
  apply (proj2 (with_notes_is_filter
                  [plain_highlight; noted_highlight; note_only_null_note]
                  [noted_highlight])).
  split; [|reflexivity].
  repeat constructor; eexists; reflexivity.
Defined.

Lemma kindle_to_md_layout_witness :
  kindle_to_md repr_unused (document_of [plain_highlight]) true
  = Ok ("# " +:+ "T" +:+ nl +:+ nl +:+ "Authors: " +:+ "A" +:+ nl +:+ nl +:+
        ("## Highlights with Notes" +:+ nl +:+ nl +:+ "" +:+ nl +:+ nl) +:+
        "## All Highlights" +:+ nl +:+ nl +:+ ("- Hi ([12](http://x))" +:+ nl) +:+ "").
Proof.
  apply (kindle_to_md_layout repr_unused
           [("title", JStr "T"); ("authors", JStr "A");
            ("highlights", JList [plain_highlight])]
           (JStr "T") (JStr "A") [plain_highlight]
           (fun _ => "- Hi ([12](http://x))" +:+ nl) true);
    try reflexivity.
  repeat constructor.
Defined.

Lemma kindle_to_md_returns_iff_witness :
  exists md, kindle_to_md repr_unused empty_document false = Ok md.
Proof.
  apply (proj2 (kindle_to_md_returns_iff repr_unused empty_document false)).
  exists [("title", JStr "T"); ("authors", JStr "A"); ("highlights", JList [])],
    (JStr "T"), (JStr "A"), (JList []), [].
  repeat split. constructor.
Defined.

Lemma kindle_to_md_key_error_iff_witness :
  kindle_to_md repr_unused document_without_highlights false
  = Raise (KeyError "highlights").
Proof.
  apply (proj2 (kindle_to_md_key_error_iff repr_unused
                  document_without_highlights false "highlights")).
  split; [reflexivity|]. split; [reflexivity|].
  exists [("title", JStr "T"); ("authors", JStr "A")], (JStr "T"), (JStr "A").
  repeat split.
Defined.

Lemma kindle_to_md_missing_header_witness :
  kindle_to_md repr_unused (JDict [("authors", JStr "A"); ("highlights", JInt 5)]) true
  = Raise (MisformattedKindleData
             (Some "Kindle export missing title or author fields.")).
Proof.
  apply (kindle_to_md_missing_header repr_unused
           [("authors", JStr "A"); ("highlights", JInt 5)] true).
  left. reflexivity.
Defined.

Lemma kindle_to_md_highlights_not_a_list_witness :
  kindle_to_md repr_unused
    (JDict [("title", JStr "T"); ("authors", JStr "A"); ("highlights", JNull)]) true
  = Raise TypeError.
Proof.
  apply (kindle_to_md_highlights_not_a_list repr_unused
           [("title", JStr "T"); ("authors", JStr "A"); ("highlights", JNull)]
           (JStr "T") (JStr "A") JNull true); try reflexivity.
  discriminate.
Defined.

Lemma non_object_entry_is_uncaught_witness :
  kindle_to_md repr_unused (document_of [contradictory_highlight; JInt 5]) true
  = Raise TypeError.
Proof.
  refine (proj1 (non_object_entry_is_uncaught repr_unused
                   (loads_as (document_of [contradictory_highlight; JInt 5]))
                   no_open_error no_write_error
                   [("title", JStr "T"); ("authors", JStr "A");
                    ("highlights", JList [contradictory_highlight; JInt 5])]
                   (JStr "T") (JStr "A") [contradictory_highlight] [] (JInt 5)
                   eq_refl eq_refl eq_refl _ _)).
  - repeat constructor. eexists. reflexivity.
  - discriminate.
Defined.
